(** * Supplier Quotation list view settings

    A shallow embedding of [supplier_quotation_list.js]:

<<
    frappe.listview_settings['Supplier Quotation'] = {
      add_fields: ["supplier", "base_grand_total", "status", "company", "currency"],
      get_indicator: function(doc) {
        if(doc.status==="Ordered") {
          return [__("Ordered"), "purple", "status,=,Ordered"];
        } else if(doc.status==="Rejected") {
          return [__("Lost"), "darkgrey", "status,=,Lost"];
        }
      }
    };
>>

    JavaScript values are either primitives or references into a store of
    objects.  Code is written in a state-and-exception monad over that store:
    reading a member may throw a [TypeError], an array or object literal
    allocates a fresh object, an assignment to a member updates the store. *)

From Stdlib Require Import PrimFloat.
From stdpp Require Import base option strings list gmap fin_maps.

(** ** Values and the object store *)

Module JS.

(** Addresses of objects. *)
Abbreviation loc := positive.

(** The language values.  Numbers are IEEE doubles; strings are compared by
    content; objects (arrays and functions included) by address. *)
Inductive value :=
  | VUndefined
  | VNull
  | VBoolean (b : bool)
  | VNumber (x : float)
  | VString (s : string)
  | VObject (l : loc).

(** The function bodies this file defines. *)
Inductive code :=
  | GetIndicatorCode.

(** What sort of object sits at an address. *)
Inductive class :=
  | Ordinary
  | Array (elems : list value)
  | Function (body : code).

(** An object: its class and its own named properties, which are data
    properties (the documents a list view receives are deserialized JSON, with
    no accessors).  The indexed elements of an array are kept in its class.
    The prototypes are the built-in ones and are not stored. *)
Record object := Object {
  cls : class;
  props : gmap string value
}.

Abbreviation heap := (gmap loc object).

(** How an evaluation ends: with a value, or by throwing.  [TypeError] is
    the language's exception.  [BadAddress] is not one: it is the model's
    answer to an address that holds no object, which a store built by
    allocation never contains. *)
Inductive error :=
  | TypeError
  | BadAddress.

Inductive completion (A : Type) :=
  | Return (a : A)
  | Throw (e : error).
Arguments Return {A} a.
Arguments Throw {A} e.

(** Computations over the store. *)
Definition M (A : Type) : Type := heap → completion A * heap.

Definition ret {A} (a : A) : M A := λ h, (Return a, h).

Definition bind {A B} (m : M A) (k : A → M B) : M B :=
  λ h, match m h with
       | (Return a, h') => k a h'
       | (Throw e, h') => (Throw e, h')
       end.

Notation "'let*' x ':=' m 'in' k" := (bind m (λ x, k))
  (at level 10, x name, m at level 100, k at level 200).

(** *** Primitive operations *)

(** [x === y] (IsStrictlyEqual): values of different types are never
    equal; numbers compare as IEEE doubles; objects compare by address. *)
Definition strict_equals (x y : value) : bool :=
  match x, y with
  | VUndefined, VUndefined => true
  | VNull, VNull => true
  | VBoolean a, VBoolean b => Bool.eqb a b
  | VNumber a, VNumber b => PrimFloat.eqb a b
  | VString a, VString b => String.eqb a b
  | VObject a, VObject b => Pos.eqb a b
  | _, _ => false
  end.

(** [v.k] for a named property [k] that the built-in prototypes do not
    define (such as [status]): [null] and [undefined] have no properties and
    throw; a primitive is looked up on its prototype and yields [undefined];
    an object yields its own property, or [undefined] when it has none. *)
Definition get_member (v : value) (k : string) : M value :=
  λ h, match v with
       | VUndefined | VNull => (Throw TypeError, h)
       | VBoolean _ | VNumber _ | VString _ => (Return VUndefined, h)
       | VObject l =>
           match h !! l with
           | Some o => (Return (default VUndefined (props o !! k)), h)
           | None => (Throw BadAddress, h)
           end
       end.

(** Allocation of a new object at an unused address. *)
Definition alloc (o : object) : M value :=
  λ h, let l := fresh (dom h) in (Return (VObject l), <[l := o]> h).

(** [[v0, v1, ...]] *)
Definition array_literal (elems : list value) : M value :=
  alloc (Object (Array elems) ∅).

(** [{k0: v0, k1: v1, ...}]; a later duplicate key overrides an earlier. *)
Definition object_literal (fields : list (string * value)) : M value :=
  alloc (Object Ordinary (list_to_map (reverse fields))).

(** [function(...) {...}] with no free local variables. *)
Definition function_expression (body : code) : M value :=
  alloc (Object (Function body) ∅).

(** [base[k] = v] in non-strict code, for a named key and a base without
    setters: throws on [null] and [undefined], is silently dropped on a
    primitive, and otherwise creates or overwrites the own property. *)
Definition put_member (base : value) (k : string) (v : value) : M value :=
  λ h, match base with
       | VUndefined | VNull => (Throw TypeError, h)
       | VBoolean _ | VNumber _ | VString _ => (Return v, h)
       | VObject l =>
           match h !! l with
           | Some o => (Return v, <[l := Object (cls o) (<[k := v]> (props o))]> h)
           | None => (Throw BadAddress, h)
           end
       end.

End JS.

(** ** The settings of the Supplier Quotation list view *)

Module SupplierQuotation.
Import JS.

Section Settings.

(** The translation lookup [__] of the host: a string to its localized
    string.  It is supplied by the framework, not by this file. *)
Variable __ : string → string.

(** [get_indicator: function(doc) { ... }].  A function body that ends
    without [return] yields [undefined]. *)
Definition get_indicator (doc : value) : M value :=
  let* s := get_member doc "status" in
  if strict_equals s (VString "Ordered") then
    array_literal [VString (__ "Ordered"); VString "purple"; VString "status,=,Ordered"]
  else
    let* s := get_member doc "status" in
    if strict_equals s (VString "Rejected") then
      array_literal [VString (__ "Lost"); VString "darkgrey"; VString "status,=,Lost"]
    else
      ret VUndefined.

(** The names listed under [add_fields]. *)
Definition add_fields : list string :=
  ["supplier"; "base_grand_total"; "status"; "company"; "currency"].

(** Running a function body on its arguments; a missing argument is
    [undefined]. *)
Definition run (c : code) (args : list value) : M value :=
  match c with
  | GetIndicatorCode => get_indicator (nth 0 args VUndefined)
  end.

(** [f(args)]: only a function object can be called. *)
Definition call (f : value) (args : list value) : M value :=
  λ h, match f with
       | VObject l =>
           match h !! l with
           | Some (Object (Function c) _) => run c args h
           | Some _ => (Throw TypeError, h)
           | None => (Throw BadAddress, h)
           end
       | _ => (Throw TypeError, h)
       end.

(** The object literal on the right of the assignment:
    [{ add_fields: [...], get_indicator: function(doc) {...} }]. *)
Definition listview_settings_literal : M value :=
  let* fields := array_literal (VString <$> add_fields) in
  let* indicator := function_expression GetIndicatorCode in
  object_literal [("add_fields", fields); ("get_indicator", indicator)].

(** The whole file, given the value of the global [frappe]:
    [frappe.listview_settings['Supplier Quotation'] = {...};] *)
Definition module_body (frappe : value) : M value :=
  let* registry := get_member frappe "listview_settings" in
  let* settings := listview_settings_literal in
  put_member registry "Supplier Quotation" settings.

End Settings.

(** *** Observing results *)

(** What the caller sees of a value: the elements of an array, or else
    the value itself. *)
Inductive shown :=
  | Plain (v : value)
  | Items (vs : list value).

Definition show (h : heap) (v : value) : shown :=
  match v with
  | VObject l =>
      match h !! l with
      | Some (Object (Array vs) _) => Items vs
      | _ => Plain v
      end
  | _ => Plain v
  end.

(** The outcome of a call as its caller sees it. *)
Definition outcome (r : completion value * heap) : completion shown :=
  match r with
  | (Return v, h) => Return (show h v)
  | (Throw e, _) => Throw e
  end.

(** The two indicators of the source, as triples of strings. *)
Definition indicator (label color filter : string) : list value :=
  [VString label; VString color; VString filter].

(** The choice [get_indicator] makes, as a function of the value read
    from [doc.status]: the elements of the array it returns, if any.
    [get_indicator_unfold] below relates it to the code. *)
Definition indicator_for (__ : string → string) (s : value) : option (list value) :=
  if strict_equals s (VString "Ordered") then
    Some (indicator (__ "Ordered") "purple" "status,=,Ordered")
  else if strict_equals s (VString "Rejected") then
    Some (indicator (__ "Lost") "darkgrey" "status,=,Lost")
  else None.

(** *** Sample data *)

(** A translation table with two entries. *)
Definition german (s : string) : string :=
  if String.eqb s "Ordered" then "Bestellt"
  else if String.eqb s "Lost" then "Verloren"
  else s.

(** A document as the list view receives it, with the given fields. *)
Definition document (fields : list (string * value)) : object :=
  Object Ordinary (list_to_map fields).

Definition quotation (status : value) : object :=
  document [("name", VString "PUR-SQTN-0001");
            ("supplier", VString "Acme");
            ("base_grand_total", VNumber 1250%float);
            ("status", status);
            ("company", VString "Globex");
            ("currency", VString "EUR")].

Definition quotation_without_status : object :=
  document [("name", VString "PUR-SQTN-0002"); ("supplier", VString "Initech")].

(** A store holding one document, at address 1. *)
Definition store_of (o : object) : heap := {[ 1%positive := o ]}.

(** *** Letter case *)

(** ASCII lower case of a character and of a string. *)
Definition lower_ascii (c : Ascii.ascii) : Ascii.ascii :=
  let n := Ascii.N_of_ascii c in
  if ((65 <=? n) && (n <=? 90))%N then Ascii.ascii_of_N (n + 32) else c.

Fixpoint lower (s : string) : string :=
  match s with
  | EmptyString => EmptyString
  | String c r => String (lower_ascii c) (lower r)
  end.

(** [s] is [t] up to the case of its letters, and is not [t]. *)
Definition differs_in_case_only (s t : string) : Prop :=
  s ≠ t ∧ lower s = lower t.

Definition is_string (v : value) : bool :=
  match v with
  | VString _ => true
  | _ => false
  end.

(** *** The file seen from the host *)

(** [frappe.listview_settings['Supplier Quotation'].get_indicator(doc)]:
    the entry the file stores, read back, and its function called on a
    document. *)
Definition registered_get_indicator
    (__ : string → string) (frappe doc : value) : M value :=
  let* registry := get_member frappe "listview_settings" in
  let* settings := get_member registry "Supplier Quotation" in
  let* f := get_member settings "get_indicator" in
  call __ f [doc].

(** A document cut down to the fields of a list: what a row carries when
    only those fields are fetched. *)
Definition only_fields (ks : list string) (o : object) : object :=
  Object (cls o) (filter (λ kv, kv.1 ∈ ks) (props o)).

(** A host store: [frappe] at address 1, its [listview_settings] at 2 with
    the entry of another document type, whose settings are at 3, and a
    document at 4. *)
Definition host_store (doc : object) : heap :=
  <[1%positive := Object Ordinary {["listview_settings" := VObject 2]}]>
    (<[2%positive := Object Ordinary {["Purchase Order" := VObject 3]}]>
       (<[3%positive := Object Ordinary ∅]> {[4%positive := doc]})).

(** A store where [frappe], at address 1, has no [listview_settings]. *)
Definition bare_store : heap :=
  {[1%positive := Object Ordinary {["boot" := VNull]}]}.

(** ** Properties *)

Section Properties.

Variable __ : string → string.

Lemma strict_equals_string v s :
  strict_equals v (VString s) = true ↔ v = VString s.
Proof.
  destruct v; simpl; try (split; [discriminate | discriminate]).
  rewrite String.eqb_eq. split; [intros -> | intros [= ->]]; reflexivity.
Qed.

Lemma strict_equals_string_ne v s :
  v ≠ VString s → strict_equals v (VString s) = false.
Proof.
  intros Hne. destruct (strict_equals v (VString s)) eqn:E; [|reflexivity].
  apply strict_equals_string in E. contradiction.
Qed.

Lemma string_or_not v s : v = VString s ∨ v ≠ VString s.
Proof.
  destruct (strict_equals v (VString s)) eqn:E.
  - left. apply strict_equals_string, E.
  - right. intros Hv. apply strict_equals_string in Hv. congruence.
Qed.

(** Reading [doc.status] off a record in the store. *)
Lemma get_status h l o :
  h !! l = Some o →
  get_member (VObject l) "status" h
  = (Return (default VUndefined (props o !! "status")), h).
Proof. intros Hl. unfold get_member. rewrite Hl. reflexivity. Qed.

(** The three paths through [get_indicator] on a record. *)
Lemma get_indicator_path_ordered h l o :
  h !! l = Some o →
  default VUndefined (props o !! "status") = VString "Ordered" →
  get_indicator __ (VObject l) h
  = array_literal (indicator (__ "Ordered") "purple" "status,=,Ordered") h.
Proof.
  intros Hl Hs. unfold get_indicator, bind.
  rewrite (get_status h l o Hl), Hs. reflexivity.
Qed.

Lemma get_indicator_path_rejected h l o :
  h !! l = Some o →
  default VUndefined (props o !! "status") = VString "Rejected" →
  get_indicator __ (VObject l) h
  = array_literal (indicator (__ "Lost") "darkgrey" "status,=,Lost") h.
Proof.
  intros Hl Hs. unfold get_indicator, bind.
  rewrite (get_status h l o Hl), Hs.
  rewrite strict_equals_string_ne by discriminate.
  rewrite (get_status h l o Hl), Hs. reflexivity.
Qed.

Lemma get_indicator_path_other h l o :
  h !! l = Some o →
  default VUndefined (props o !! "status") ≠ VString "Ordered" →
  default VUndefined (props o !! "status") ≠ VString "Rejected" →
  get_indicator __ (VObject l) h = (Return VUndefined, h).
Proof.
  intros Hl Ho Hr. unfold get_indicator, bind.
  rewrite (get_status h l o Hl), (strict_equals_string_ne _ _ Ho).
  rewrite (get_status h l o Hl), (strict_equals_string_ne _ _ Hr).
  reflexivity.
Qed.

(** An array literal returns a new address that holds the array. *)
Lemma array_literal_spec vs h :
  ∃ a, h !! a = None ∧
       array_literal vs h = (Return (VObject a), <[a := Object (Array vs) ∅]> h).
Proof.
  exists (fresh (dom h)). split; [|reflexivity].
  apply not_elem_of_dom, is_fresh.
Qed.

Lemma show_array h a vs ps :
  h !! a = Some (Object (Array vs) ps) → show h (VObject a) = Items vs.
Proof. intros Ha. simpl. rewrite Ha. reflexivity. Qed.

(** C1: for every record whose [status] is the string "Ordered",
    [get_indicator] returns a new array holding the localized label
    "Ordered", the color "purple" and the filter "status,=,Ordered"; the
    caller sees exactly that triple. *)
Theorem get_indicator_Ordered (h : heap) (l : loc) (o : object) :
  h !! l = Some o →
  props o !! "status" = Some (VString "Ordered") →
  ∃ a, h !! a = None ∧
    get_indicator __ (VObject l) h
    = (Return (VObject a),
       <[a := Object (Array [VString (__ "Ordered"); VString "purple";
                             VString "status,=,Ordered"]) ∅]> h) ∧
    outcome (get_indicator __ (VObject l) h)
    = Return (Items [VString (__ "Ordered"); VString "purple";
                     VString "status,=,Ordered"]).
Proof.
  intros Hl Hs.
  rewrite (get_indicator_path_ordered h l o Hl) by (rewrite Hs; reflexivity).
  destruct (array_literal_spec
              (indicator (__ "Ordered") "purple" "status,=,Ordered") h)
    as (a & Hfresh & ->).
  exists a. repeat split; [assumption|].
  unfold outcome. erewrite show_array; [reflexivity|]. apply lookup_insert_eq.
Qed.

(** C2: for every record whose [status] is the string "Rejected",
    [get_indicator] returns a new array holding the localized label "Lost",
    the color "darkgrey" and the filter "status,=,Lost": the filter names
    "Lost", not "Rejected". *)
Theorem get_indicator_Rejected (h : heap) (l : loc) (o : object) :
  h !! l = Some o →
  props o !! "status" = Some (VString "Rejected") →
  ∃ a, h !! a = None ∧
    get_indicator __ (VObject l) h
    = (Return (VObject a),
       <[a := Object (Array [VString (__ "Lost"); VString "darkgrey";
                             VString "status,=,Lost"]) ∅]> h) ∧
    outcome (get_indicator __ (VObject l) h)
    = Return (Items [VString (__ "Lost"); VString "darkgrey";
                     VString "status,=,Lost"]) ∧
    outcome (get_indicator __ (VObject l) h)
    ≠ Return (Items [VString (__ "Lost"); VString "darkgrey";
                     VString "status,=,Rejected"]).
Proof.
  intros Hl Hs.
  rewrite (get_indicator_path_rejected h l o Hl) by (rewrite Hs; reflexivity).
  destruct (array_literal_spec
              (indicator (__ "Lost") "darkgrey" "status,=,Lost") h)
    as (a & Hfresh & ->).
  exists a. split; [assumption|]. split; [reflexivity|].
  unfold outcome. erewrite show_array by apply lookup_insert_eq.
  split; [reflexivity | discriminate].
Qed.

Lemma default_status_ne (o : object) (s : string) :
  props o !! "status" ≠ Some (VString s) →
  default VUndefined (props o !! "status") ≠ VString s.
Proof.
  destruct (props o !! "status") as [v|]; simpl; [congruence | discriminate].
Qed.

(** C3: for every record whose [status] is anything but the strings
    "Ordered" and "Rejected", an absent [status] included, [get_indicator]
    returns [undefined] and leaves the store as it was. *)
Theorem get_indicator_no_indicator (h : heap) (l : loc) (o : object) :
  h !! l = Some o →
  props o !! "status" ≠ Some (VString "Ordered") →
  props o !! "status" ≠ Some (VString "Rejected") →
  get_indicator __ (VObject l) h = (Return VUndefined, h) ∧
  outcome (get_indicator __ (VObject l) h) = Return (Plain VUndefined).
Proof.
  intros Hl Ho Hr.
  rewrite (get_indicator_path_other h l o Hl)
    by (apply default_status_ne; assumption).
  split; reflexivity.
Qed.

(** C4: on every record of the store [get_indicator] completes normally;
    when the record has no [status], or a [status] that is not a string,
    what it returns is [undefined]. *)
Theorem get_indicator_never_raises (h : heap) (l : loc) (o : object) :
  h !! l = Some o →
  (∃ v h', get_indicator __ (VObject l) h = (Return v, h')) ∧
  ((∀ e, (get_indicator __ (VObject l) h).1 ≠ Throw e)) ∧
  ((∀ s, props o !! "status" ≠ Some (VString s)) →
   get_indicator __ (VObject l) h = (Return VUndefined, h)).
Proof.
  intros Hl.
  assert (Hret : ∃ v h', get_indicator __ (VObject l) h = (Return v, h')).
  { destruct (string_or_not (default VUndefined (props o !! "status")) "Ordered")
      as [Ho|Ho].
    - rewrite (get_indicator_path_ordered h l o Hl Ho).
      destruct (array_literal_spec
                  (indicator (__ "Ordered") "purple" "status,=,Ordered") h)
        as (a & _ & ->). eauto.
    - destruct (string_or_not (default VUndefined (props o !! "status")) "Rejected")
        as [Hr|Hr].
      + rewrite (get_indicator_path_rejected h l o Hl Hr).
        destruct (array_literal_spec
                    (indicator (__ "Lost") "darkgrey" "status,=,Lost") h)
          as (a & _ & ->). eauto.
      + rewrite (get_indicator_path_other h l o Hl Ho Hr). eauto. }
  split; [exact Hret|]. split.
  - destruct Hret as (v & h' & ->). discriminate.
  - intros Hns. apply (get_indicator_path_other h l o Hl);
      apply default_status_ne, Hns.
Qed.

(** *** The store across a call *)

Lemma alloc_spec (o : object) (h : heap) :
  ∃ a, h !! a = None ∧ alloc o h = (Return (VObject a), <[a := o]> h).
Proof.
  exists (fresh (dom h)). split; [|reflexivity].
  apply not_elem_of_dom, is_fresh.
Qed.

Lemma get_member_heap v k h : (get_member v k h).2 = h.
Proof.
  unfold get_member. destruct v; try reflexivity.
  destruct (h !! l); reflexivity.
Qed.

(** [get_indicator] reads [doc.status] and then follows [indicator_for]. *)
Lemma get_indicator_unfold doc h :
  get_indicator __ doc h
  = match (get_member doc "status" h).1 with
    | Throw e => (Throw e, h)
    | Return s =>
        match indicator_for __ s with
        | Some vs => array_literal vs h
        | None => (Return VUndefined, h)
        end
    end.
Proof.
  unfold get_indicator, bind, indicator_for.
  pose proof (get_member_heap doc "status" h) as Hh.
  destruct (get_member doc "status" h) as [c h'] eqn:E. simpl in Hh. subst h'.
  destruct c as [s|e]; simpl; [|reflexivity].
  destruct (strict_equals s (VString "Ordered")); [reflexivity|].
  rewrite E.
  destruct (strict_equals s (VString "Rejected")); reflexivity.
Qed.

(** A call throws or returns [undefined] and leaves the store as it was,
    or returns a new array at an address that was unused. *)
Lemma get_indicator_store doc h :
  (∃ e, get_indicator __ doc h = (Throw e, h)) ∨
  get_indicator __ doc h = (Return VUndefined, h) ∨
  ∃ a vs, h !! a = None ∧
          get_indicator __ doc h
          = (Return (VObject a), <[a := Object (Array vs) ∅]> h).
Proof.
  rewrite get_indicator_unfold.
  destruct (get_member doc "status" h).1 as [s|e]; [|left; eauto].
  destruct (indicator_for __ s) as [vs|]; [|right; left; reflexivity].
  right; right. destruct (array_literal_spec vs h) as (a & Ha & ->). eauto.
Qed.

Lemma get_indicator_subseteq doc h : h ⊆ (get_indicator __ doc h).2.
Proof.
  destruct (get_indicator_store doc h) as [[e ->] | [-> | (a & vs & Ha & ->)]];
    [reflexivity | reflexivity |].
  apply insert_subseteq, Ha.
Qed.

(** What a call returned shows the same in every larger store. *)
Lemma outcome_later doc h (h' : heap) :
  (get_indicator __ doc h).2 ⊆ h' →
  outcome ((get_indicator __ doc h).1, h') = outcome (get_indicator __ doc h).
Proof.
  destruct (get_indicator_store doc h) as [[e ->] | [-> | (a & vs & Ha & ->)]];
    [reflexivity | reflexivity |].
  simpl. intros Hsub.
  assert (Hnew : (<[a := Object (Array vs) ∅]> h) !! a
                 = Some (Object (Array vs) ∅)) by apply lookup_insert_eq.
  rewrite Hnew, (lookup_weaken _ _ _ _ Hnew Hsub). reflexivity.
Qed.

(** What the caller sees of a call. *)
Lemma outcome_get_indicator doc h :
  outcome (get_indicator __ doc h)
  = match (get_member doc "status" h).1 with
    | Throw e => Throw e
    | Return s =>
        Return match indicator_for __ s with
               | Some vs => Items vs
               | None => Plain VUndefined
               end
    end.
Proof.
  rewrite get_indicator_unfold.
  destruct (get_member doc "status" h).1 as [s|e]; [|reflexivity].
  destruct (indicator_for __ s) as [vs|]; [|reflexivity].
  destruct (array_literal_spec vs h) as (a & Ha & ->).
  unfold outcome. erewrite show_array; [reflexivity | apply lookup_insert_eq].
Qed.

(** Members and arrays read the same in a larger store. *)
Lemma get_member_subseteq (h h' : heap) l o k :
  h ⊆ h' → h !! l = Some o →
  get_member (VObject l) k h' = (Return (default VUndefined (props o !! k)), h').
Proof.
  intros Hsub Hl. unfold get_member.
  rewrite (lookup_weaken _ _ _ _ Hl Hsub). reflexivity.
Qed.

Lemma status_subseteq (h h' : heap) doc s :
  h ⊆ h' →
  (get_member doc "status" h).1 = Return s →
  (get_member doc "status" h').1 = Return s.
Proof.
  intros Hsub. unfold get_member. destruct doc; try (intros H; exact H).
  destruct (h !! l) as [o|] eqn:Hl; [|discriminate].
  rewrite (lookup_weaken _ _ _ _ Hl Hsub). intros H; exact H.
Qed.

Lemma show_subseteq (h h' : heap) a vs ps :
  h ⊆ h' → h !! a = Some (Object (Array vs) ps) →
  show h' (VObject a) = Items vs.
Proof.
  intros Hsub Ha. eapply show_array, lookup_weaken; eassumption.
Qed.

(** The settings literal allocates the array of field names, the function
    and the object that holds both. *)
Lemma listview_settings_literal_spec (h : heap) :
  ∃ a f s,
    h !! a = None ∧ h !! f = None ∧ h !! s = None ∧ a ≠ f ∧ a ≠ s ∧ f ≠ s ∧
    listview_settings_literal h
    = (Return (VObject s),
       <[s := Object Ordinary
                (<["add_fields" := VObject a]>
                   (<["get_indicator" := VObject f]> ∅))]>
         (<[f := Object (Function GetIndicatorCode) ∅]>
            (<[a := Object (Array (VString <$> add_fields)) ∅]> h))).
Proof.
  unfold listview_settings_literal, bind, array_literal, function_expression,
    object_literal.
  destruct (alloc_spec (Object (Array (VString <$> add_fields)) ∅) h)
    as (a & Ha & ->).
  destruct (alloc_spec (Object (Function GetIndicatorCode) ∅)
              (<[a := Object (Array (VString <$> add_fields)) ∅]> h))
    as (f & Hf & ->).
  match goal with |- context [alloc ?o ?h1] =>
    destruct (alloc_spec o h1) as (s & Hs & ->) end.
  apply lookup_insert_None in Hf as [Hf Haf].
  apply lookup_insert_None in Hs as [Hs Hfs].
  apply lookup_insert_None in Hs as [Hs Has].
  exists a, f, s. repeat split; assumption.
Qed.

(** C5: [add_fields] is the five names "supplier", "base_grand_total",
    "status", "company", "currency", in that order.  In every store the
    settings object is built in, its [add_fields] member is an array of
    exactly these, and it still is after its [get_indicator] member has been
    called on any argument. *)
Theorem add_fields_constant (h : heap) (doc : value) :
  add_fields
  = ["supplier"; "base_grand_total"; "status"; "company"; "currency"] ∧
  ∃ s f h1,
    listview_settings_literal h = (Return (VObject s), h1) ∧
    outcome (get_member (VObject s) "add_fields" h1)
    = Return (Items [VString "supplier"; VString "base_grand_total";
                     VString "status"; VString "company";
                     VString "currency"]) ∧
    get_member (VObject s) "get_indicator" h1 = (Return f, h1) ∧
    call __ f [doc] h1 = get_indicator __ doc h1 ∧
    outcome (get_member (VObject s) "add_fields" (call __ f [doc] h1).2)
    = Return (Items [VString "supplier"; VString "base_grand_total";
                     VString "status"; VString "company";
                     VString "currency"]).
Proof.
  split; [reflexivity|].
  destruct (listview_settings_literal_spec h)
    as (a & f & s & Ha & Hf & Hs & Haf & Has & Hfs & Heq).
  rewrite Heq. eexists s, (VObject f), _. split; [reflexivity|].
  match goal with |- context [get_member _ _ ?h1] => set (h1' := h1) end.
  assert (H1s : h1' !! s = Some (Object Ordinary
                  (<["add_fields" := VObject a]>
                     (<["get_indicator" := VObject f]> ∅))))
    by apply lookup_insert_eq.
  assert (H1f : h1' !! f = Some (Object (Function GetIndicatorCode) ∅)).
  { unfold h1'. rewrite lookup_insert_ne by congruence. apply lookup_insert_eq. }
  assert (H1a : h1' !! a = Some (Object (Array (VString <$> add_fields)) ∅)).
  { unfold h1'. rewrite !lookup_insert_ne by congruence. apply lookup_insert_eq. }
  assert (Hcall : call __ (VObject f) [doc] h1' = get_indicator __ doc h1').
  { unfold call. rewrite H1f. reflexivity. }
  split; [|split; [|split]].
  - rewrite (get_member_subseteq h1' h1' s _ "add_fields" (reflexivity _) H1s).
    unfold outcome. change (default VUndefined _) with (VObject a).
    rewrite (show_array h1' a _ _ H1a). reflexivity.
  - rewrite (get_member_subseteq h1' h1' s _ "get_indicator" (reflexivity _) H1s).
    reflexivity.
  - exact Hcall.
  - rewrite Hcall.
    pose proof (get_indicator_subseteq doc h1') as Hsub.
    rewrite (get_member_subseteq h1' _ s _ "add_fields" Hsub H1s).
    unfold outcome.
    change (default VUndefined _) with (VObject a).
    rewrite (show_subseteq h1' _ a _ _ Hsub H1a). reflexivity.
Qed.

(** C6: calling [get_indicator] a second time on the same argument, in the
    store the first call left, shows the caller the same outcome as the
    first call; and what the first call returned still shows the same after
    the second. *)
Theorem get_indicator_twice (doc : value) (h : heap) :
  let r1 := get_indicator __ doc h in
  let r2 := get_indicator __ doc r1.2 in
  outcome r2 = outcome r1 ∧ outcome (r1.1, r2.2) = outcome r1.
Proof.
  intros r1 r2.
  pose proof (get_indicator_subseteq doc h) as Hsub1.
  pose proof (get_indicator_subseteq doc r1.2) as Hsub2.
  fold r1 in Hsub1. fold r2 in Hsub2.
  assert (Hout : outcome r2 = outcome r1).
  { unfold r2, r1 at 2. rewrite !outcome_get_indicator.
    destruct (get_member doc "status" h).1 as [s|e] eqn:Es.
    - rewrite (status_subseteq h r1.2 doc s Hsub1 Es). reflexivity.
    - unfold r1. rewrite get_indicator_unfold, Es. simpl. rewrite Es.
      reflexivity. }
  split; [exact Hout|].
  apply outcome_later, Hsub2.
Qed.

(** C7: a call of [get_indicator] on a record changes no object of the
    store, the record included: the store afterwards is the store before,
    or the store before with the returned array at an address that was
    unused. *)
Theorem get_indicator_no_mutation (h : heap) (l : loc) (o : object) :
  h !! l = Some o →
  let r := get_indicator __ (VObject l) h in
  r.2 !! l = Some o ∧
  h ⊆ r.2 ∧
  (r.2 = h ∨
   ∃ a vs, h !! a = None ∧ r.1 = Return (VObject a) ∧
           r.2 = <[a := Object (Array vs) ∅]> h).
Proof.
  intros Hl r.
  pose proof (get_indicator_subseteq (VObject l) h) as Hsub. fold r in Hsub.
  split; [exact (lookup_weaken _ _ _ _ Hl Hsub)|]. split; [exact Hsub|].
  unfold r.
  destruct (get_indicator_store (VObject l) h)
    as [[e ->] | [-> | (a & vs & Ha & ->)]];
    [left; reflexivity | left; reflexivity |].
  right. exists a, vs. repeat split. exact Ha.
Qed.

(** C8: [get_indicator] is a total function of its argument and the
    store.  It returns [undefined] with the store unchanged, or a new array;
    it throws only on [null] and [undefined], and reports a bad address only
    for an address with no object; on a record it returns. *)
Theorem get_indicator_terminates (doc : value) (h : heap) :
  ∃ c h', get_indicator __ doc h = (c, h') ∧
    match c with
    | Return v =>
        (v = VUndefined ∧ h' = h) ∨
        (∃ a vs, v = VObject a ∧ h !! a = None ∧
                 h' = <[a := Object (Array vs) ∅]> h)
    | Throw TypeError => (doc = VUndefined ∨ doc = VNull) ∧ h' = h
    | Throw BadAddress => (∃ l, doc = VObject l ∧ h !! l = None) ∧ h' = h
    end ∧
    (∀ l, doc = VObject l → is_Some (h !! l) → ∃ v, c = Return v).
Proof.
  rewrite get_indicator_unfold.
  assert (Hst : match (get_member doc "status" h).1 with
                | Return _ => ∀ l, doc = VObject l → is_Some (h !! l)
                | Throw TypeError => doc = VUndefined ∨ doc = VNull
                | Throw BadAddress => ∃ l, doc = VObject l ∧ h !! l = None
                end).
  { unfold get_member. destruct doc; simpl; auto; try discriminate.
    destruct (h !! l) as [o|] eqn:Hl; simpl.
    - intros l' [= <-]. rewrite Hl. eauto.
    - eauto. }
  destruct (get_member doc "status" h).1 as [s|[]].
  - destruct (indicator_for __ s) as [vs|].
    + destruct (array_literal_spec vs h) as (a & Ha & ->).
      eexists _, _. split; [reflexivity|]. split; [|eauto].
      right. eauto.
    + eexists _, _. split; [reflexivity|]. split; [|eauto]. left. auto.
  - eexists _, _. split; [reflexivity|]. split; [auto|].
    intros l -> Hsome. destruct Hst as [?|?]; discriminate.
  - eexists _, _. split; [reflexivity|]. split; [auto|].
    intros l -> [o Ho]. destruct Hst as (l' & [= <-] & Hn). congruence.
Qed.

(** C9: two records with the same [status], in whatever stores and with
    whatever other fields, show the caller the same outcome; in one store
    the two calls are equal altogether. *)
Theorem get_indicator_status_only
    (h1 h2 : heap) (l1 l2 : loc) (o1 o2 : object) :
  h1 !! l1 = Some o1 →
  h2 !! l2 = Some o2 →
  props o1 !! "status" = props o2 !! "status" →
  outcome (get_indicator __ (VObject l1) h1)
  = outcome (get_indicator __ (VObject l2) h2) ∧
  (h1 = h2 →
   get_indicator __ (VObject l1) h1 = get_indicator __ (VObject l2) h2).
Proof.
  intros H1 H2 Hst. split.
  - rewrite !outcome_get_indicator.
    rewrite (get_status h1 l1 o1 H1), (get_status h2 l2 o2 H2), Hst.
    reflexivity.
  - intros <-. rewrite !get_indicator_unfold.
    rewrite (get_status h1 l1 o1 H1), (get_status h1 l2 o2 H2), Hst.
    reflexivity.
Qed.

Lemma lower_Ordered_ne s : lower s = lower "Ordered" → s ≠ "Rejected".
Proof. intros H ->. discriminate H. Qed.

Lemma lower_Rejected_ne s : lower s = lower "Rejected" → s ≠ "Ordered".
Proof. intros H ->. discriminate H. Qed.

(** C10: the match on [status] is exact.  For every record whose [status]
    is a string that is "Ordered" or "Rejected" up to letter case but not
    exactly, or is not a string at all, [get_indicator] returns
    [undefined]. *)
Theorem get_indicator_strict_match
    (h : heap) (l : loc) (o : object) (v : value) :
  h !! l = Some o →
  props o !! "status" = Some v →
  (∃ s, v = VString s ∧
        (differs_in_case_only s "Ordered" ∨ differs_in_case_only s "Rejected"))
  ∨ is_string v = false →
  get_indicator __ (VObject l) h = (Return VUndefined, h) ∧
  outcome (get_indicator __ (VObject l) h) = Return (Plain VUndefined).
Proof.
  intros Hl Hs Hv.
  assert (Hpath : get_indicator __ (VObject l) h = (Return VUndefined, h)).
  { apply (get_indicator_path_other h l o Hl); rewrite Hs; simpl.
    - destruct Hv as [(s & -> & [[Hne Hlow] | [Hne Hlow]]) | Hv].
      + congruence.
      + apply lower_Rejected_ne in Hlow. congruence.
      + intros ->. discriminate.
    - destruct Hv as [(s & -> & [[Hne Hlow] | [Hne Hlow]]) | Hv].
      + apply lower_Ordered_ne in Hlow. congruence.
      + congruence.
      + intros ->. discriminate. }
  rewrite Hpath. split; reflexivity.
Qed.

(** Each call that returns an indicator returns a new array: the two
    arrays of two calls hold the same elements at two addresses. *)
Lemma get_indicator_new_array h l o :
  h !! l = Some o →
  props o !! "status" = Some (VString "Ordered") →
  (get_indicator __ (VObject l) (get_indicator __ (VObject l) h).2).1
  ≠ (get_indicator __ (VObject l) h).1.
Proof.
  intros Hl Hs.
  assert (Hd : default VUndefined (props o !! "status") = VString "Ordered")
    by (rewrite Hs; reflexivity).
  rewrite (get_indicator_path_ordered h l o Hl Hd).
  destruct (array_literal_spec
              (indicator (__ "Ordered") "purple" "status,=,Ordered") h)
    as (a & Ha & ->). simpl.
  assert (Hl' : (<[a := Object (Array (indicator (__ "Ordered") "purple"
                                         "status,=,Ordered")) ∅]> h) !! l
                = Some o).
  { rewrite lookup_insert_ne by congruence. exact Hl. }
  rewrite (get_indicator_path_ordered _ l o Hl' Hd).
  match goal with |- context [array_literal ?vs ?h1] =>
    destruct (array_literal_spec vs h1) as (b & Hb & ->) end.
  simpl. intros [= ->]. rewrite lookup_insert_eq in Hb. discriminate.
Qed.

(** *** Outside the records *)

(** [doc.status] throws when [doc] is [null] or [undefined]. *)
Lemma get_indicator_null h : get_indicator __ VNull h = (Throw TypeError, h).
Proof. reflexivity. Qed.

Lemma get_indicator_undefined h :
  get_indicator __ VUndefined h = (Throw TypeError, h).
Proof. reflexivity. Qed.

(** A primitive has no [status]. *)
Lemma get_indicator_primitive doc h :
  match doc with
  | VBoolean _ | VNumber _ | VString _ => True
  | _ => False
  end →
  get_indicator __ doc h = (Return VUndefined, h).
Proof. destruct doc; intros []; reflexivity. Qed.

(** *** Loading the file *)

(** With [frappe.listview_settings] an object of the store, the file
    stores its settings under the key "Supplier Quotation" and changes no
    other object. *)
Lemma module_body_spec (h : heap) (f r : loc) (fo ro : object) :
  h !! f = Some fo →
  props fo !! "listview_settings" = Some (VObject r) →
  h !! r = Some ro →
  ∃ s h',
    module_body (VObject f) h = (Return (VObject s), h') ∧
    h !! s = None ∧
    get_member (VObject r) "Supplier Quotation" h' = (Return (VObject s), h') ∧
    outcome (get_member (VObject s) "add_fields" h')
    = Return (Items (VString <$> add_fields)) ∧
    ∀ l, l ≠ r → is_Some (h !! l) → h' !! l = h !! l.
Proof.
  intros Hf Hreg Hr. unfold module_body, bind.
  rewrite (get_member_subseteq h h f fo _ (reflexivity _) Hf), Hreg.
  destruct (listview_settings_literal_spec h)
    as (a & g & s & Ha & Hg & Hs & Hag & Has & Hgs & ->).
  assert (Hrs : r ≠ s) by congruence.
  assert (Hrg : r ≠ g) by congruence.
  assert (Hra : r ≠ a) by congruence.
  change (default VUndefined (Some (VObject r))) with (VObject r).
  unfold put_member.
  rewrite !lookup_insert_ne by congruence. rewrite Hr.
  eexists s, _. split; [reflexivity|]. split; [exact Hs|].
  split; [|split].
  - unfold get_member. rewrite lookup_insert_eq. simpl.
    rewrite lookup_insert_eq. reflexivity.
  - unfold get_member, outcome.
    rewrite lookup_insert_ne, lookup_insert_eq by congruence.
    change (default VUndefined _) with (VObject a). unfold show.
    rewrite !lookup_insert_ne, lookup_insert_eq by congruence. reflexivity.
  - intros l Hlr [x Hx].
    rewrite !lookup_insert_ne by congruence. reflexivity.
Qed.

End Properties.

(** ** The properties on sample documents *)

(** An ordered quotation, with the German table: the badge reads
    "Bestellt", in purple, and filters on "Ordered". *)
Lemma get_indicator_Ordered_witness :
  outcome (get_indicator german (VObject 1)
             (store_of (quotation (VString "Ordered"))))
  = Return (Items [VString "Bestellt"; VString "purple";
                   VString "status,=,Ordered"]).
Proof.
  destruct (get_indicator_Ordered german
              (store_of (quotation (VString "Ordered"))) 1
              (quotation (VString "Ordered")))
    as (a & _ & _ & Hout); [reflexivity | reflexivity | exact Hout].
Defined.

(** A rejected quotation: the badge reads "Verloren", in dark grey, and
    filters on "Lost". *)
Lemma get_indicator_Rejected_witness :
  outcome (get_indicator german (VObject 1)
             (store_of (quotation (VString "Rejected"))))
  = Return (Items [VString "Verloren"; VString "darkgrey";
                   VString "status,=,Lost"]).
Proof.
  destruct (get_indicator_Rejected german
              (store_of (quotation (VString "Rejected"))) 1
              (quotation (VString "Rejected")))
    as (a & _ & _ & Hout & _); [reflexivity | reflexivity | exact Hout].
Defined.

(** No badge for "Draft", for the empty string, for [null], and for a
    document without [status]. *)
Lemma get_indicator_no_indicator_witness :
  get_indicator german (VObject 1) (store_of (quotation (VString "Draft")))
  = (Return VUndefined, store_of (quotation (VString "Draft"))) ∧
  get_indicator german (VObject 1) (store_of (quotation (VString "")))
  = (Return VUndefined, store_of (quotation (VString ""))) ∧
  get_indicator german (VObject 1) (store_of (quotation VNull))
  = (Return VUndefined, store_of (quotation VNull)) ∧
  get_indicator german (VObject 1) (store_of quotation_without_status)
  = (Return VUndefined, store_of quotation_without_status).
Proof.
  split; [|split; [|split]].
  - apply (get_indicator_no_indicator german _ 1 (quotation (VString "Draft")));
      [reflexivity | discriminate | discriminate].
  - apply (get_indicator_no_indicator german _ 1 (quotation (VString "")));
      [reflexivity | discriminate | discriminate].
  - apply (get_indicator_no_indicator german _ 1 (quotation VNull));
      [reflexivity | discriminate | discriminate].
  - apply (get_indicator_no_indicator german _ 1 quotation_without_status);
      [reflexivity | discriminate | discriminate].
Defined.

(** A document without [status] and one whose [status] is a number: the
    call returns, and returns [undefined]. *)
Lemma get_indicator_never_raises_witness :
  get_indicator german (VObject 1) (store_of quotation_without_status)
  = (Return VUndefined, store_of quotation_without_status) ∧
  get_indicator german (VObject 1) (store_of (quotation (VNumber 3%float)))
  = (Return VUndefined, store_of (quotation (VNumber 3%float))).
Proof.
  split.
  - apply (get_indicator_never_raises german _ 1 quotation_without_status);
      [reflexivity | discriminate].
  - apply (get_indicator_never_raises german _ 1
             (quotation (VNumber 3%float)));
      [reflexivity | discriminate].
Defined.

(** The ordered quotation is still in the store, as it was, after the
    call. *)
Lemma get_indicator_no_mutation_witness :
  (get_indicator german (VObject 1)
     (store_of (quotation (VString "Ordered")))).2 !! 1%positive
  = Some (quotation (VString "Ordered")).
Proof.
  apply (get_indicator_no_mutation german
           (store_of (quotation (VString "Ordered"))) 1
           (quotation (VString "Ordered"))).
  reflexivity.
Defined.

(** Two ordered documents, in two stores, with other fields and at other
    addresses. *)
Lemma get_indicator_status_only_witness :
  outcome (get_indicator german (VObject 1)
             (store_of (quotation (VString "Ordered"))))
  = outcome (get_indicator german (VObject 7)
               (<[7%positive := document [("status", VString "Ordered");
                                          ("supplier", VString "Umbrella")]]>
                  (store_of quotation_without_status))).
Proof.
  apply (get_indicator_status_only german _ _ 1 7
           (quotation (VString "Ordered"))
           (document [("status", VString "Ordered");
                      ("supplier", VString "Umbrella")]));
    reflexivity.
Defined.

(** "ordered" and "REJECTED" differ from the two statuses in case only;
    the number 1 and the boolean [true] are not strings. *)
Lemma get_indicator_strict_match_witness :
  get_indicator german (VObject 1) (store_of (quotation (VString "ordered")))
  = (Return VUndefined, store_of (quotation (VString "ordered"))) ∧
  get_indicator german (VObject 1) (store_of (quotation (VString "REJECTED")))
  = (Return VUndefined, store_of (quotation (VString "REJECTED"))) ∧
  get_indicator german (VObject 1) (store_of (quotation (VNumber 1%float)))
  = (Return VUndefined, store_of (quotation (VNumber 1%float))) ∧
  get_indicator german (VObject 1) (store_of (quotation (VBoolean true)))
  = (Return VUndefined, store_of (quotation (VBoolean true))).
Proof.
  split; [|split; [|split]].
  - apply (get_indicator_strict_match german _ 1
             (quotation (VString "ordered")) (VString "ordered"));
      [reflexivity | reflexivity |].
    left. exists "ordered". split; [reflexivity|]. left.
    split; [discriminate | reflexivity].
  - apply (get_indicator_strict_match german _ 1
             (quotation (VString "REJECTED")) (VString "REJECTED"));
      [reflexivity | reflexivity |].
    left. exists "REJECTED". split; [reflexivity|]. right.
    split; [discriminate | reflexivity].
  - apply (get_indicator_strict_match german _ 1
             (quotation (VNumber 1%float)) (VNumber 1%float));
      [reflexivity | reflexivity | right; reflexivity].
  - apply (get_indicator_strict_match german _ 1
             (quotation (VBoolean true)) (VBoolean true));
      [reflexivity | reflexivity | right; reflexivity].
Defined.

(** ** Loading the file and using what it stores *)

Section Loading.

Variable __ : string → string.

(** The store after the settings literal holds all that was there. *)
Lemma listview_settings_literal_subseteq (h : heap) :
  h ⊆ (listview_settings_literal h).2.
Proof.
  destruct (listview_settings_literal_spec h)
    as (a & g & s & Ha & Hg & Hs & Hag & Has & Hgs & ->). simpl.
  apply map_subseteq_spec. intros l x Hl.
  rewrite !lookup_insert_ne by congruence. exact Hl.
Qed.

(** The store a successful load leaves: three new objects, and the
    registry with one more entry. *)
Lemma module_body_store (h : heap) (f r : loc) (fo ro : object) :
  h !! f = Some fo →
  props fo !! "listview_settings" = Some (VObject r) →
  h !! r = Some ro →
  ∃ a g s,
    h !! a = None ∧ h !! g = None ∧ h !! s = None ∧ a ≠ g ∧ a ≠ s ∧ g ≠ s ∧
    module_body (VObject f) h
    = (Return (VObject s),
       <[r := Object (cls ro) (<["Supplier Quotation" := VObject s]> (props ro))]>
         (<[s := Object Ordinary
                   (<["add_fields" := VObject a]>
                      (<["get_indicator" := VObject g]> ∅))]>
            (<[g := Object (Function GetIndicatorCode) ∅]>
               (<[a := Object (Array (VString <$> add_fields)) ∅]> h)))).
Proof.
  intros Hf Hreg Hr. unfold module_body, bind.
  rewrite (get_member_subseteq h h f fo _ (reflexivity _) Hf), Hreg.
  destruct (listview_settings_literal_spec h)
    as (a & g & s & Ha & Hg & Hs & Hag & Has & Hgs & ->).
  change (default VUndefined (Some (VObject r))) with (VObject r).
  unfold put_member.
  rewrite !lookup_insert_ne by congruence. rewrite Hr.
  exists a, g, s. repeat split; assumption.
Qed.

(** What a successful load leaves at an address that held an object. *)
Lemma module_body_lookup (h : heap) (f r l : loc) (fo ro o : object) :
  h !! f = Some fo →
  props fo !! "listview_settings" = Some (VObject r) →
  h !! r = Some ro →
  h !! l = Some o →
  ∃ o', (module_body (VObject f) h).2 !! l = Some o' ∧
        cls o' = cls o ∧
        (l ≠ r → o' = o) ∧
        ∀ k, k ≠ "Supplier Quotation" → props o' !! k = props o !! k.
Proof.
  intros Hf Hreg Hr Hl.
  destruct (module_body_store h f r fo ro Hf Hreg Hr)
    as (a & g & s & Ha & Hg & Hs & Hag & Has & Hgs & ->). simpl.
  destruct (decide (l = r)) as [->|Hne].
  - rewrite lookup_insert_eq. eexists. split; [reflexivity|].
    assert (o = ro) as -> by congruence.
    split; [reflexivity|]. split; [congruence|].
    intros k Hk. simpl. apply lookup_insert_ne. congruence.
  - rewrite !lookup_insert_ne by congruence. eauto.
Qed.

(** The entry a successful load stores, and the function it holds. *)
Lemma module_body_entry (h : heap) (f r : loc) (fo ro : object) :
  h !! f = Some fo →
  props fo !! "listview_settings" = Some (VObject r) →
  h !! r = Some ro →
  ∃ s g h',
    module_body (VObject f) h = (Return (VObject s), h') ∧
    h !! s = None ∧ is_Some (h' !! s) ∧
    get_member (VObject r) "Supplier Quotation" h' = (Return (VObject s), h') ∧
    get_member (VObject s) "get_indicator" h' = (Return (VObject g), h') ∧
    h' !! g = Some (Object (Function GetIndicatorCode) ∅).
Proof.
  intros Hf Hreg Hr.
  destruct (module_body_store h f r fo ro Hf Hreg Hr)
    as (a & g & s & Ha & Hg & Hs & Hag & Has & Hgs & ->).
  assert (Hrs : r ≠ s) by congruence.
  assert (Hrg : r ≠ g) by congruence.
  eexists s, g, _. split; [reflexivity|]. split; [exact Hs|].
  split; [|split; [|split]].
  - rewrite lookup_insert_ne, lookup_insert_eq by congruence. eauto.
  - unfold get_member. rewrite lookup_insert_eq. simpl.
    rewrite lookup_insert_eq. reflexivity.
  - unfold get_member.
    rewrite lookup_insert_ne, lookup_insert_eq by congruence. reflexivity.
  - rewrite !lookup_insert_ne by congruence. apply lookup_insert_eq.
Qed.

(** The registry after a successful load, and its keys. *)
Lemma module_body_keeps_others_aux (h : heap) (f r : loc) (fo ro : object) :
  h !! f = Some fo →
  props fo !! "listview_settings" = Some (VObject r) →
  h !! r = Some ro →
  ∃ ro', (module_body (VObject f) h).2 !! r = Some ro' ∧
         dom (props ro') = {["Supplier Quotation"]} ∪ dom (props ro).
Proof.
  intros Hf Hreg Hr.
  destruct (module_body_store h f r fo ro Hf Hreg Hr)
    as (a & g & s & Ha & Hg & Hs & Hag & Has & Hgs & ->). simpl.
  rewrite lookup_insert_eq. eexists. split; [reflexivity|]. apply dom_insert_L.
Qed.

(** X1: when [frappe.listview_settings] is an object, loading the file
    succeeds.  The value of the assignment is a new settings object; the
    registry holds it under "Supplier Quotation"; its members are
    [add_fields], an array of the five names, and [get_indicator], the
    function, and it has no other member. *)
Theorem module_body_registers (h : heap) (f r : loc) (fo ro : object) :
  h !! f = Some fo →
  props fo !! "listview_settings" = Some (VObject r) →
  h !! r = Some ro →
  ∃ s a g h',
    module_body (VObject f) h = (Return (VObject s), h') ∧
    h !! s = None ∧
    get_member (VObject r) "Supplier Quotation" h' = (Return (VObject s), h') ∧
    get_member (VObject s) "add_fields" h' = (Return (VObject a), h') ∧
    h' !! a = Some (Object (Array (VString <$> add_fields)) ∅) ∧
    get_member (VObject s) "get_indicator" h' = (Return (VObject g), h') ∧
    h' !! g = Some (Object (Function GetIndicatorCode) ∅) ∧
    (∀ k, k ≠ "add_fields" → k ≠ "get_indicator" →
          get_member (VObject s) k h' = (Return VUndefined, h')).
Proof.
  intros Hf Hreg Hr.
  destruct (module_body_store h f r fo ro Hf Hreg Hr)
    as (a & g & s & Ha & Hg & Hs & Hag & Has & Hgs & ->).
  assert (Hrs : r ≠ s) by congruence.
  assert (Hrg : r ≠ g) by congruence.
  assert (Hra : r ≠ a) by congruence.
  eexists s, a, g, _. split; [reflexivity|]. split; [exact Hs|].
  match goal with |- context [get_member _ _ ?h1] => set (h' := h1) end.
  assert (H's : h' !! s = Some (Object Ordinary
                  (<["add_fields" := VObject a]>
                     (<["get_indicator" := VObject g]> ∅)))).
  { unfold h'. rewrite lookup_insert_ne by congruence. apply lookup_insert_eq. }
  split; [|split; [|split; [|split; [|split]]]].
  - unfold get_member, h'. rewrite lookup_insert_eq. simpl.
    rewrite lookup_insert_eq. reflexivity.
  - unfold get_member. rewrite H's. reflexivity.
  - unfold h'. rewrite !lookup_insert_ne by congruence. apply lookup_insert_eq.
  - unfold get_member. rewrite H's. reflexivity.
  - unfold h'. rewrite !lookup_insert_ne by congruence. apply lookup_insert_eq.
  - intros k Hk1 Hk2. unfold get_member. rewrite H's. simpl.
    rewrite !lookup_insert_ne by congruence. reflexivity.
Qed.

(** X2: when reading [frappe.listview_settings] throws, or gives
    [undefined] or [null], loading the file throws a [TypeError]; every
    object of the store is as it was, and nothing has been registered. *)
Theorem module_body_without_registry (frappe : value) (h : heap) :
  (get_member frappe "listview_settings" h).1 = Throw TypeError ∨
  (get_member frappe "listview_settings" h).1 = Return VUndefined ∨
  (get_member frappe "listview_settings" h).1 = Return VNull →
  (module_body frappe h).1 = Throw TypeError ∧
  h ⊆ (module_body frappe h).2.
Proof.
  intros Hreg. unfold module_body, bind.
  pose proof (get_member_heap frappe "listview_settings" h) as Hh.
  destruct (get_member frappe "listview_settings" h) as [c h0].
  simpl in Hh, Hreg. subst h0.
  pose proof (listview_settings_literal_subseteq h) as Hsub.
  destruct Hreg as [-> | [-> | ->]].
  - split; reflexivity.
  - destruct (listview_settings_literal_spec h)
      as (a & g & s & _ & _ & _ & _ & _ & _ & Heq).
    rewrite Heq in Hsub |- *. simpl in *. split; [reflexivity | exact Hsub].
  - destruct (listview_settings_literal_spec h)
      as (a & g & s & _ & _ & _ & _ & _ & _ & Heq).
    rewrite Heq in Hsub |- *. simpl in *. split; [reflexivity | exact Hsub].
Qed.

(** X3: a successful load changes one thing in what was there: the
    registry gains or replaces its "Supplier Quotation" entry.  The other
    entries of the registry, its class, and every other object of the store
    are as they were. *)
Theorem module_body_keeps_others (h : heap) (f r : loc) (fo ro : object) :
  h !! f = Some fo →
  props fo !! "listview_settings" = Some (VObject r) →
  h !! r = Some ro →
  (∃ ro', (module_body (VObject f) h).2 !! r = Some ro' ∧
          cls ro' = cls ro ∧
          dom (props ro') = {["Supplier Quotation"]} ∪ dom (props ro) ∧
          ∀ k, k ≠ "Supplier Quotation" → props ro' !! k = props ro !! k) ∧
  (∀ l x, l ≠ r → h !! l = Some x →
          (module_body (VObject f) h).2 !! l = Some x).
Proof.
  intros Hf Hreg Hr. split.
  - destruct (module_body_store h f r fo ro Hf Hreg Hr)
      as (a & g & s & Ha & Hg & Hs & Hag & Has & Hgs & ->). simpl.
    rewrite lookup_insert_eq. eexists. split; [reflexivity|]. simpl.
    split; [reflexivity|]. split; [apply dom_insert_L|].
    intros k Hk. apply lookup_insert_ne. congruence.
  - intros l x Hne Hl.
    destruct (module_body_lookup h f r l fo ro x Hf Hreg Hr Hl)
      as (o' & Hl' & _ & Hsame & _).
    rewrite Hl', (Hsame Hne). reflexivity.
Qed.

(** X4: after a successful load, reading the entry back from the
    registry and calling its [get_indicator] on a document of the store
    shows what [get_indicator] itself shows on that document. *)
Theorem registered_get_indicator_after_load
    (h : heap) (f r l : loc) (fo ro o : object) :
  h !! f = Some fo →
  props fo !! "listview_settings" = Some (VObject r) →
  h !! r = Some ro →
  h !! l = Some o →
  outcome ((let* _ := module_body (VObject f) in
            registered_get_indicator __ (VObject f) (VObject l)) h)
  = outcome (get_indicator __ (VObject l) h).
Proof.
  intros Hf Hreg Hr Hl.
  destruct (module_body_lookup h f r f fo ro fo Hf Hreg Hr Hf)
    as (fo' & Hf' & _ & _ & Hfk).
  destruct (module_body_lookup h f r l fo ro o Hf Hreg Hr Hl)
    as (o' & Hl' & _ & _ & Hlk).
  destruct (module_body_entry h f r fo ro Hf Hreg Hr)
    as (s & g & h' & Hload & _ & _ & Hentry & Hfun & Hg).
  unfold bind at 1. rewrite Hload in Hf', Hl' |- *. simpl in Hf', Hl'.
  unfold registered_get_indicator, bind.
  rewrite (get_member_subseteq h' h' f fo' _ (reflexivity _) Hf').
  rewrite (Hfk "listview_settings") by discriminate. rewrite Hreg.
  change (default VUndefined (Some (VObject r))) with (VObject r).
  rewrite Hentry, Hfun. unfold call. rewrite Hg. simpl.
  rewrite !outcome_get_indicator.
  rewrite (get_status h' l o' Hl'), (get_status h l o Hl).
  rewrite (Hlk "status") by discriminate. reflexivity.
Qed.

(** X5: loading the file a second time succeeds again and replaces the
    entry: the registry then holds the second settings object, at another
    address than the first; the first is still in the store, unchanged; the
    registry has the same keys as after one load. *)
Theorem module_body_twice (h : heap) (f r : loc) (fo ro : object) :
  h !! f = Some fo →
  props fo !! "listview_settings" = Some (VObject r) →
  h !! r = Some ro →
  let r1 := module_body (VObject f) h in
  let r2 := module_body (VObject f) r1.2 in
  ∃ s1 s2 ro1 ro2,
    r1.1 = Return (VObject s1) ∧ r2.1 = Return (VObject s2) ∧ s1 ≠ s2 ∧
    get_member (VObject r) "Supplier Quotation" r2.2
    = (Return (VObject s2), r2.2) ∧
    is_Some (r1.2 !! s1) ∧ r2.2 !! s1 = r1.2 !! s1 ∧
    r1.2 !! r = Some ro1 ∧ r2.2 !! r = Some ro2 ∧
    dom (props ro2) = dom (props ro1).
Proof.
  intros Hf Hreg Hr r1 r2.
  destruct (module_body_lookup h f r f fo ro fo Hf Hreg Hr Hf)
    as (fo1 & Hf1 & _ & _ & Hfk).
  destruct (module_body_keeps_others_aux h f r fo ro Hf Hreg Hr)
    as (ro1 & Hr1 & Hdom1).
  fold r1 in Hf1, Hr1.
  assert (Hreg1 : props fo1 !! "listview_settings" = Some (VObject r)).
  { rewrite (Hfk "listview_settings") by discriminate. exact Hreg. }
  destruct (module_body_entry h f r fo ro Hf Hreg Hr)
    as (s1 & g1 & h1 & Hload1 & Hs1 & Hs1in & _).
  fold r1 in Hload1.
  destruct (module_body_entry r1.2 f r fo1 ro1 Hf1 Hreg1 Hr1)
    as (s2 & g2 & h2 & Hload2 & Hs2 & _ & Hentry2 & _).
  fold r2 in Hload2.
  destruct (module_body_keeps_others_aux r1.2 f r fo1 ro1 Hf1 Hreg1 Hr1)
    as (ro2 & Hr2 & Hdom2).
  fold r2 in Hr2.
  replace h1 with r1.2 in Hs1in by (rewrite Hload1; reflexivity).
  assert (Hne : s1 ≠ s2).
  { intros ->. destruct Hs1in as [x Hx]. congruence. }
  assert (Hs1r : s1 ≠ r) by congruence.
  exists s1, s2, ro1, ro2.
  split; [rewrite Hload1; reflexivity|]. split; [rewrite Hload2; reflexivity|].
  split; [exact Hne|]. split; [rewrite Hload2; exact Hentry2|].
  split; [exact Hs1in|]. split.
  - destruct Hs1in as [x Hx]. rewrite Hx.
    destruct (module_body_lookup r1.2 f r s1 fo1 ro1 x Hf1 Hreg1 Hr1 Hx)
      as (x' & Hx' & _ & Hsame & _).
    fold r2 in Hx'. rewrite Hx', (Hsame Hs1r). reflexivity.
  - split; [exact Hr1|]. split; [exact Hr2|].
    rewrite Hdom2, Hdom1, (assoc_L (∪)), (idemp_L (∪)). reflexivity.
Qed.

(** *** What the function reads and what it returns *)

Lemma lookup_only_fields (ks : list string) (o : object) (k : string) :
  props (only_fields ks o) !! k = if decide (k ∈ ks) then props o !! k else None.
Proof.
  unfold only_fields. simpl. apply option_eq. intros x.
  rewrite map_lookup_filter_Some. simpl.
  destruct (decide (k ∈ ks)) as [Hk|Hk].
  - split; [intros [Hx _]; exact Hx | intros Hx; split; assumption].
  - split; [intros [_ Hin]; contradiction | discriminate].
Qed.

(** X6: a row that carries only the fields of [add_fields] shows the
    indicator of the whole document.  The same holds for every list of
    fields with "status" in it; a row fetched without "status" shows no
    indicator, whatever the document. *)
Theorem get_indicator_on_fetched_row (h : heap) (l : loc) (o : object) :
  h !! l = Some o →
  outcome (get_indicator __ (VObject l) (<[l := only_fields add_fields o]> h))
  = outcome (get_indicator __ (VObject l) h) ∧
  (∀ ks, "status" ∈ ks →
     outcome (get_indicator __ (VObject l) (<[l := only_fields ks o]> h))
     = outcome (get_indicator __ (VObject l) h)) ∧
  (∀ ks, "status" ∉ ks →
     outcome (get_indicator __ (VObject l) (<[l := only_fields ks o]> h))
     = Return (Plain VUndefined)).
Proof.
  intros Hl.
  assert (Hrow : ∀ ks,
    outcome (get_indicator __ (VObject l) (<[l := only_fields ks o]> h))
    = Return match indicator_for __
                     (default VUndefined (props (only_fields ks o) !! "status"))
             with
             | Some vs => Items vs
             | None => Plain VUndefined
             end).
  { intros ks. rewrite outcome_get_indicator.
    rewrite (get_status _ l (only_fields ks o)) by apply lookup_insert_eq.
    reflexivity. }
  assert (Hin : ∀ ks, "status" ∈ ks →
    outcome (get_indicator __ (VObject l) (<[l := only_fields ks o]> h))
    = outcome (get_indicator __ (VObject l) h)).
  { intros ks Hks. rewrite Hrow, lookup_only_fields.
    rewrite decide_True by exact Hks.
    rewrite outcome_get_indicator, (get_status h l o Hl). reflexivity. }
  split; [|split].
  - apply Hin, list_elem_of_In. simpl. tauto.
  - exact Hin.
  - intros ks Hks. rewrite Hrow, lookup_only_fields.
    rewrite decide_False by exact Hks. reflexivity.
Qed.

(** X7: the translation decides the label and nothing else.  Under two
    translations a call ends the same way and returns the same value; when
    it returns an indicator, the two arrays hold the translations of one
    key, the same color and the same filter. *)
Theorem translation_changes_label_only
    (t1 t2 : string → string) (doc : value) (h : heap) :
  (get_indicator t1 doc h).1 = (get_indicator t2 doc h).1 ∧
  dom (get_indicator t1 doc h).2 = dom (get_indicator t2 doc h).2 ∧
  ((∃ e, outcome (get_indicator t1 doc h) = Throw e ∧
         outcome (get_indicator t2 doc h) = Throw e) ∨
   (outcome (get_indicator t1 doc h) = Return (Plain VUndefined) ∧
    outcome (get_indicator t2 doc h) = Return (Plain VUndefined)) ∨
   (∃ key color filter,
      outcome (get_indicator t1 doc h)
      = Return (Items [VString (t1 key); VString color; VString filter]) ∧
      outcome (get_indicator t2 doc h)
      = Return (Items [VString (t2 key); VString color; VString filter]))).
Proof.
  rewrite !outcome_get_indicator, !get_indicator_unfold.
  destruct (get_member doc "status" h).1 as [s|e].
  - unfold indicator_for.
    destruct (strict_equals s (VString "Ordered")).
    + unfold array_literal, alloc. simpl.
      split; [reflexivity|]. split; [rewrite !dom_insert_L; reflexivity|].
      right; right. exists "Ordered", "purple", "status,=,Ordered".
      split; reflexivity.
    + destruct (strict_equals s (VString "Rejected")).
      * unfold array_literal, alloc. simpl.
        split; [reflexivity|]. split; [rewrite !dom_insert_L; reflexivity|].
        right; right. exists "Lost", "darkgrey", "status,=,Lost".
        split; reflexivity.
      * split; [reflexivity|]. split; [reflexivity|].
        right; left. split; reflexivity.
  - split; [reflexivity|]. split; [reflexivity|]. left. exists e.
    split; reflexivity.
Qed.

Lemma default_status_string (o : object) (s : string) :
  default VUndefined (props o !! "status") = VString s →
  props o !! "status" = Some (VString s).
Proof.
  destruct (props o !! "status") as [v|]; simpl; [congruence | discriminate].
Qed.

(** X8: an indicator is returned for the two statuses only.  When the
    call on a record shows an array, the record's [status] is "Ordered" and
    the array is the purple indicator, or it is "Rejected" and the array is
    the dark grey one. *)
Theorem get_indicator_inversion
    (h : heap) (l : loc) (o : object) (vs : list value) :
  h !! l = Some o →
  outcome (get_indicator __ (VObject l) h) = Return (Items vs) →
  (props o !! "status" = Some (VString "Ordered") ∧
   vs = [VString (__ "Ordered"); VString "purple"; VString "status,=,Ordered"])
  ∨
  (props o !! "status" = Some (VString "Rejected") ∧
   vs = [VString (__ "Lost"); VString "darkgrey"; VString "status,=,Lost"]).
Proof.
  intros Hl. rewrite outcome_get_indicator, (get_status h l o Hl).
  unfold indicator_for. cbn [fst].
  destruct (strict_equals (default VUndefined (props o !! "status"))
              (VString "Ordered")) eqn:Eo.
  - cbv iota. intros [= <-]. left. split; [|reflexivity].
    apply default_status_string, strict_equals_string, Eo.
  - destruct (strict_equals (default VUndefined (props o !! "status"))
                (VString "Rejected")) eqn:Er.
    + cbv iota. intros [= <-]. right. split; [|reflexivity].
      apply default_status_string, strict_equals_string, Er.
    + discriminate.
Qed.

End Loading.

(** ** Loading, on a sample host store *)

(** The file loads in the host store, and the registry then holds the
    settings under "Supplier Quotation". *)
Lemma module_body_registers_witness :
  ∃ s,
    (module_body (VObject 1) (host_store quotation_without_status)).1
    = Return (VObject s) ∧
    (get_member (VObject 2) "Supplier Quotation"
       (module_body (VObject 1) (host_store quotation_without_status)).2).1
    = Return (VObject s).
Proof.
  destruct (module_body_registers (host_store quotation_without_status) 1 2
              (Object Ordinary {["listview_settings" := VObject 2]})
              (Object Ordinary {["Purchase Order" := VObject 3]}))
    as (s & a & g & h' & Hload & _ & Hentry & _);
    [reflexivity | reflexivity | reflexivity |].
  exists s. rewrite Hload. cbn [fst snd]. rewrite Hentry.
  split; reflexivity.
Defined.

(** With no [listview_settings] on [frappe], loading throws. *)
Lemma module_body_without_registry_witness :
  (module_body (VObject 1) bare_store).1 = Throw TypeError.
Proof.
  apply (module_body_without_registry (VObject 1) bare_store).
  right; left. reflexivity.
Defined.

(** The settings of the other document type are where they were. *)
Lemma module_body_keeps_others_witness :
  (module_body (VObject 1) (host_store quotation_without_status)).2
    !! 3%positive
  = Some (Object Ordinary ∅).
Proof.
  apply (module_body_keeps_others (host_store quotation_without_status) 1 2
           (Object Ordinary {["listview_settings" := VObject 2]})
           (Object Ordinary {["Purchase Order" := VObject 3]}));
    [reflexivity | reflexivity | reflexivity | discriminate | reflexivity].
Defined.

(** Load, then ask the registry for the badge of an ordered quotation. *)
Lemma registered_get_indicator_after_load_witness :
  outcome ((let* _ := module_body (VObject 1) in
            registered_get_indicator german (VObject 1) (VObject 4))
             (host_store (quotation (VString "Ordered"))))
  = Return (Items [VString "Bestellt"; VString "purple";
                   VString "status,=,Ordered"]).
Proof.
  rewrite (registered_get_indicator_after_load german
             (host_store (quotation (VString "Ordered"))) 1 2 4
             (Object Ordinary {["listview_settings" := VObject 2]})
             (Object Ordinary {["Purchase Order" := VObject 3]})
             (quotation (VString "Ordered")));
    reflexivity.
Defined.

(** Loading twice gives two settings objects. *)
Lemma module_body_twice_witness :
  ∃ s1 s2,
    s1 ≠ s2 ∧
    (module_body (VObject 1) (host_store quotation_without_status)).1
    = Return (VObject s1) ∧
    (module_body (VObject 1)
       (module_body (VObject 1) (host_store quotation_without_status)).2).1
    = Return (VObject s2).
Proof.
  destruct (module_body_twice (host_store quotation_without_status) 1 2
              (Object Ordinary {["listview_settings" := VObject 2]})
              (Object Ordinary {["Purchase Order" := VObject 3]}))
    as (s1 & s2 & ro1 & ro2 & H1 & H2 & Hne & _);
    [reflexivity | reflexivity | reflexivity |].
  exists s1, s2. split; [exact Hne|]. split; [exact H1 | exact H2].
Defined.

(** The rejected quotation, cut down to the fields of [add_fields]. *)
Lemma get_indicator_on_fetched_row_witness :
  outcome (get_indicator german (VObject 1)
             (<[1%positive := only_fields add_fields
                                (quotation (VString "Rejected"))]>
                (store_of (quotation (VString "Rejected")))))
  = outcome (get_indicator german (VObject 1)
               (store_of (quotation (VString "Rejected")))).
Proof.
  assert (Hl : store_of (quotation (VString "Rejected")) !! 1%positive
               = Some (quotation (VString "Rejected"))) by reflexivity.
  exact (proj1 (get_indicator_on_fetched_row german
                  (store_of (quotation (VString "Rejected"))) 1
                  (quotation (VString "Rejected")) Hl)).
Defined.

(** The dark grey badge comes from a rejected quotation. *)
Lemma get_indicator_inversion_witness :
  (props (quotation (VString "Rejected")) !! "status"
   = Some (VString "Ordered") ∧
   [VString "Verloren"; VString "darkgrey"; VString "status,=,Lost"]
   = [VString (german "Ordered"); VString "purple";
      VString "status,=,Ordered"])
  ∨
  (props (quotation (VString "Rejected")) !! "status"
   = Some (VString "Rejected") ∧
   [VString "Verloren"; VString "darkgrey"; VString "status,=,Lost"]
   = [VString (german "Lost"); VString "darkgrey"; VString "status,=,Lost"]).
Proof.
  apply (get_indicator_inversion german
           (store_of (quotation (VString "Rejected"))) 1
           (quotation (VString "Rejected"))
           [VString "Verloren"; VString "darkgrey"; VString "status,=,Lost"]);
    reflexivity.
Defined.

End SupplierQuotation.
